(** * The embedding plugin bridge of plugin/api/embedding.go

    A shallow embedding of the gRPC bridge for the [Embedding] capability:
    the registration facade [EmbeddingPlugin], the server adapter
    [EmbeddingGRPCServer] and the client adapter [EmbeddingGRPCClient].

    Go values are modelled as the code has them:
    - a pointer, a slice or an [error] that may be [nil] is an [option],
      with [None] for [nil];
    - an interface value is the record of its methods;
    - a method that calls out of this file runs in the monad [Go], which
      threads the state [W] of the collaborators (the bound implementation,
      the transport), records the calls to the logging helper, to the bound
      implementation and to the transport in a trace of [event]s, and may
      panic (a nil pointer dereference). *)

From Stdlib Require Import String Ascii List Bool NArith Lia.
Import ListNotations.
Open Scope string_scope.

(** ** Errors *)

(** A Go [error]: a leaf error carrying its text (as made by [errors.New]),
    or an error that wraps a cause (as made by [fmt.Errorf] with [%w]). *)
Inductive error : Type :=
| errorString (s : string)
| wrapError (msg : string) (err : error).

(** The [Error()] method. *)
Definition Error (e : error) : string :=
  match e with
  | errorString s => s
  | wrapError msg _ => msg
  end.

(** [errors.Unwrap]. *)
Definition errors_Unwrap (e : error) : option error :=
  match e with
  | errorString _ => None
  | wrapError _ err => Some err
  end.

Definition errors_New (text : string) : error := errorString text.

Fixpoint error_eqb (a b : error) : bool :=
  match a, b with
  | errorString s, errorString s' => String.eqb s s'
  | wrapError m x, wrapError m' x' => String.eqb m m' && error_eqb x x'
  | _, _ => false
  end.

(** [errors.Is]: [target] is found somewhere along the unwrap chain. *)
Fixpoint errors_Is (err target : error) : bool :=
  error_eqb err target ||
  match err with
  | errorString _ => false
  | wrapError _ inner => errors_Is inner target
  end.

(** The unwrap chain of an error, the error itself first. *)
Fixpoint chain (e : error) : list error :=
  e :: match e with
       | errorString _ => []
       | wrapError _ inner => chain inner
       end.

(** Number of wrappers around the innermost cause. *)
Fixpoint depth (e : error) : nat :=
  match e with
  | errorString _ => 0
  | wrapError _ inner => S (depth inner)
  end.

(** [fmt.Sprintf] for a format with one operand, printed at the first
    [%w] verb; every other character of the format is copied. *)
Fixpoint Sprintf (format operand : string) : string :=
  match format with
  | String c1 (String c2 rest as tail) =>
      if Ascii.eqb c1 "%" && Ascii.eqb c2 "w"
      then operand ++ rest
      else String c1 (Sprintf tail operand)
  | _ => format
  end.

(** [fmt.Errorf(format, err)] for a format holding [%w] and a non-nil
    [err]: the message is the formatted text, [Unwrap] gives [err] back. *)
Definition fmt_Errorf (format : string) (err : error) : error :=
  wrapError (Sprintf format (Error err)) err.

(** [strings.HasPrefix]. *)
Fixpoint strings_HasPrefix (s prefix : string) {struct prefix} : bool :=
  match prefix with
  | EmptyString => true
  | String p prefix' =>
      match s with
      | EmptyString => false
      | String c s' => Ascii.eqb c p && strings_HasPrefix s' prefix'
      end
  end.

(** The category of an error of this package: its text starts with the
    tag, a colon and a space. *)
Definition tagged (tag : string) (e : error) : bool :=
  strings_HasPrefix (Error e) (tag ++ ": ").

(** Modelled from the spec: the sentinel [ErrNotGRPC] is declared in
    another file of the package; the spec calls it the fixed
    unsupported-transport error. Nothing below depends on its text. *)
Definition ErrNotGRPC : error := errors_New "unsupported transport".

(** ** Contexts, messages, slices *)

(** A 32-bit float, as its bit pattern; the bridge only moves them. *)
Definition float32 : Type := N.

(** A Go slice: [None] is the nil slice, [Some []] an empty one. *)
Definition Slice (A : Type) : Type := option (list A).

(** Modelled from the spec: a [context.Context] carries the cancellation
    signal and call-scoped metadata, here the logging scopes attached to
    it, innermost first. *)
Record Context : Type := mkContext {
  ctx_Err : option error;
  ctx_logging : list string
}.

Definition context_Background : Context :=
  {| ctx_Err := None; ctx_logging := [] |}.

(** Modelled from the spec: [InitLogging] is declared in another file of
    the package; it returns the context augmented with the named logging
    scope and leaves the cancellation signal as it is. *)
Definition InitLogging (ctx : Context) (name : string) : Context :=
  {| ctx_Err := ctx_Err ctx; ctx_logging := name :: ctx_logging ctx |}.

Record EmbeddingRequest : Type := mkEmbeddingRequest {
  EmbeddingRequest_Input : string
}.

Record EmbeddingResponse : Type := mkEmbeddingResponse {
  EmbeddingResponse_Embedding : Slice float32
}.

(** Framework handles the facade receives and ignores. *)
Definition MuxBroker : Type := option N.
Definition GRPCBroker : Type := option N.
Definition rpc_Client : Type := option N.
Definition grpc_ClientConn : Type := option N.

(** ** Calls that leave the file *)

Inductive event : Type :=
| CallInitLogging (ctx : Context) (name : string)
| CallEmbedding (ctx : Context) (input : string)
| CallClientEmbedding (ctx : Context) (req : option EmbeddingRequest).

Inductive outcome (A : Type) : Type :=
| Returned (a : A)
| Panicked (msg : string).
Arguments Returned {A} a.
Arguments Panicked {A} msg.

Definition nil_dereference : string :=
  "invalid memory address or nil pointer dereference".

(** ** The monad of Go calls *)

Definition Go (W A : Type) : Type := W -> list event * outcome A * W.

Definition ret {W A : Type} (a : A) : Go W A :=
  fun w => ([], Returned a, w).

Definition panic {W A : Type} (msg : string) : Go W A :=
  fun w => ([], Panicked msg, w).

Definition tell {W : Type} (e : event) : Go W unit :=
  fun w => ([e], Returned tt, w).

Definition bind {W A B : Type} (m : Go W A) (k : A -> Go W B) : Go W B :=
  fun w =>
    let '(t1, o, w1) := m w in
    match o with
    | Returned a => let '(t2, o2, w2) := k a w1 in ((t1 ++ t2)%list, o2, w2)
    | Panicked msg => (t1, Panicked msg, w1)
    end.

Declare Scope go_scope.
Delimit Scope go_scope with go.
Notation "x <- m ;; k" := (bind m (fun x => k))
  (at level 100, m at next level, right associativity) : go_scope.
Notation "' p <- m ;; k" := (bind m (fun x => let 'p := x in k))
  (at level 100, p pattern, m at next level, right associativity) : go_scope.
Open Scope go_scope.

(** Projections of a finished call. *)
Definition trace_of {W A : Type} (r : list event * outcome A * W) : list event :=
  fst (fst r).
Definition outcome_of {W A : Type} (r : list event * outcome A * W) : outcome A :=
  snd (fst r).
Definition world_of {W A : Type} (r : list event * outcome A * W) : W :=
  snd r.

(** [p.Input] and [p.Embedding] through a pointer that may be nil. *)
Definition deref {W A B : Type} (p : option A) (field : A -> B) : Go W B :=
  match p with
  | Some v => ret (field v)
  | None => panic nil_dereference
  end.

Section Bridge.

Variable W : Type.

(** ** Interfaces *)

(** [type Embedding interface]. *)
Record Embedding : Type := mkEmbedding {
  Embedding_Embedding :
    Context -> string -> Go W (Slice float32 * option error)
}.

(** The generated [EmbeddingServer] and [EmbeddingClient] interfaces. *)
Record EmbeddingServer : Type := mkEmbeddingServer {
  EmbeddingServer_Embedding :
    Context -> option EmbeddingRequest ->
    Go W (option EmbeddingResponse * option error)
}.

Record EmbeddingClient : Type := mkEmbeddingClient {
  EmbeddingClient_Embedding :
    Context -> option EmbeddingRequest ->
    Go W (option EmbeddingResponse * option error)
}.

(** Calls through an interface, recorded in the trace. *)
Definition call_InitLogging (ctx : Context) (name : string) : Go W Context :=
  _ <- tell (CallInitLogging ctx name) ;;
  ret (InitLogging ctx name).

Definition call_Embedding (impl : Embedding) (ctx : Context) (input : string)
  : Go W (Slice float32 * option error) :=
  _ <- tell (CallEmbedding ctx input) ;;
  Embedding_Embedding impl ctx input.

Definition call_ClientEmbedding (client : EmbeddingClient) (ctx : Context)
  (req : option EmbeddingRequest)
  : Go W (option EmbeddingResponse * option error) :=
  _ <- tell (CallClientEmbedding ctx req) ;;
  EmbeddingClient_Embedding client ctx req.

(** ** Structs and constructors *)

Record EmbeddingPlugin : Type := mkEmbeddingPlugin {
  EmbeddingPlugin_Embedding : Embedding
}.

Definition NewEmbeddingPlugin (embedding : Embedding) : EmbeddingPlugin :=
  {| EmbeddingPlugin_Embedding := embedding |}.

Record EmbeddingGRPCServer : Type := mkEmbeddingGRPCServer {
  Impl : Embedding
}.

Definition NewEmbeddingGRPCServer (impl : Embedding) : EmbeddingGRPCServer :=
  {| Impl := impl |}.

Record EmbeddingGRPCClient : Type := mkEmbeddingGRPCClient {
  Client : EmbeddingClient
}.

Definition NewEmbeddingGRPCClient (client : EmbeddingClient)
  : EmbeddingGRPCClient :=
  {| Client := client |}.

(** ** Server adapter *)

Definition EmbeddingGRPCServer_Embedding (s : EmbeddingGRPCServer)
  (ctx : Context) (req : option EmbeddingRequest)
  : Go W (option EmbeddingResponse * option error) :=
  ctx <- call_InitLogging ctx "embedding" ;;
  input <- deref req EmbeddingRequest_Input ;;
  '(embedding, err) <- call_Embedding (Impl s) ctx input ;;
  match err with
  | Some err => ret (None, Some (fmt_Errorf "embedding failed: %w" err))
  | None =>
      ret (Some {| EmbeddingResponse_Embedding := embedding |}, None)
  end.

(** A pointer to [EmbeddingGRPCServer] used as an [EmbeddingServer]. *)
Definition EmbeddingGRPCServer_as_EmbeddingServer (s : EmbeddingGRPCServer)
  : EmbeddingServer :=
  {| EmbeddingServer_Embedding := EmbeddingGRPCServer_Embedding s |}.

(** ** Client adapter *)

Definition EmbeddingGRPCClient_Embedding (c : EmbeddingGRPCClient)
  (ctx : Context) (input : string)
  : Go W (Slice float32 * option error) :=
  let req := Some {| EmbeddingRequest_Input := input |} in
  '(resp, err) <- call_ClientEmbedding (Client c) ctx req ;;
  match err with
  | Some err => ret (None, Some (fmt_Errorf "embedding failed: %w" err))
  | None =>
      embedding <- deref resp EmbeddingResponse_Embedding ;;
      ret (embedding, None)
  end.

(** A pointer to [EmbeddingGRPCClient] used as an [Embedding]. *)
Definition EmbeddingGRPCClient_as_Embedding (c : EmbeddingGRPCClient)
  : Embedding :=
  {| Embedding_Embedding := EmbeddingGRPCClient_Embedding c |}.

(** ** Registration facade *)

(** The values the facade hands out as [interface{}]. *)
Inductive any : Type :=
| any_EmbeddingGRPCClient (c : EmbeddingGRPCClient).

(** A [*grpc.Server]: the services registered on it, oldest first. *)
Record grpc_Server : Type := mkServer {
  services : list EmbeddingServer
}.

(** Modelled from the spec: [RegisterEmbeddingServer] is generated code
    kept in another file; it attaches the served capability to the
    framework-provided server handle. The handle is mutated in place, so
    the updated handle is handed back. *)
Definition RegisterEmbeddingServer (srv : grpc_Server) (impl : EmbeddingServer)
  : grpc_Server :=
  {| services := services srv ++ [impl] |}.

(** [NewEmbeddingClient] is generated code kept in another file and runs
    over the gRPC runtime; the facade only passes its result on, so the
    stub it builds for a connection is taken as it comes. *)
Variable NewEmbeddingClient : grpc_ClientConn -> EmbeddingClient.

Definition EmbeddingPlugin_Server (plugin : EmbeddingPlugin) (_ : MuxBroker)
  : Go W (option any * option error) :=
  ret (None, Some ErrNotGRPC).

Definition EmbeddingPlugin_Client (plugin : EmbeddingPlugin) (_ : MuxBroker)
  (_ : rpc_Client) : Go W (option any * option error) :=
  ret (None, Some ErrNotGRPC).

Definition EmbeddingPlugin_GRPCServer (plugin : EmbeddingPlugin)
  (_ : GRPCBroker) (srv : grpc_Server) : Go W (grpc_Server * option error) :=
  let srv :=
    RegisterEmbeddingServer srv
      (EmbeddingGRPCServer_as_EmbeddingServer
         (NewEmbeddingGRPCServer (EmbeddingPlugin_Embedding plugin))) in
  ret (srv, None).

Definition EmbeddingPlugin_GRPCClient (plugin : EmbeddingPlugin)
  (_ : Context) (_ : GRPCBroker) (client : grpc_ClientConn)
  : Go W (option any * option error) :=
  ret (Some (any_EmbeddingGRPCClient
               (NewEmbeddingGRPCClient (NewEmbeddingClient client))), None).

(** ** The two adapters back to back *)

(** A transport inside the caller's own process: the request is handed to
    the handler and the handler's response and error come back as they
    are. It stands for no part of the gRPC runtime: it does not look at
    the cancellation signal, it does not re-encode the response, and a
    panic of the handler unwinds through it. *)
Definition loopback (srv : EmbeddingServer) : EmbeddingClient :=
  {| EmbeddingClient_Embedding :=
       fun ctx req => EmbeddingServer_Embedding srv ctx req |}.

(** The client adapter over the loopback to the server adapter bound to
    [impl]: the server's response and error are delivered to the client
    adapter as the result of the round trip. *)
Definition bridge (impl : Embedding) : Embedding :=
  EmbeddingGRPCClient_as_Embedding
    (NewEmbeddingGRPCClient
       (loopback
          (EmbeddingGRPCServer_as_EmbeddingServer
             (NewEmbeddingGRPCServer impl)))).

(** What the two adapters make, over the loopback, of the outcome of the
    bound implementation. *)
Definition across_bridge (o : outcome (Slice float32 * option error))
  : outcome (Slice float32 * option error) :=
  match o with
  | Returned (v, None) => Returned (v, None)
  | Returned (_, Some e) =>
      Returned (None,
                Some (fmt_Errorf "embedding failed: %w"
                        (fmt_Errorf "embedding failed: %w" e)))
  | Panicked msg => Panicked msg
  end.

(** ** Sample collaborators *)

(** An implementation that answers every call with the same pair. *)
Definition constant_impl (v : Slice float32) (e : option error) : Embedding :=
  {| Embedding_Embedding := fun _ _ => ret (v, e) |}.

(** An implementation that reads its context: the vector it returns holds
    the number of logging scopes attached to the context it is given. *)
Definition scope_counting_impl : Embedding :=
  {| Embedding_Embedding :=
       fun ctx _ =>
         ret (Some [N.of_nat (List.length (ctx_logging ctx))], None) |}.

(** A transport that answers every call with the same pair. *)
Definition constant_client (resp : option EmbeddingResponse)
  (err : option error) : EmbeddingClient :=
  {| EmbeddingClient_Embedding := fun _ _ => ret (resp, err) |}.

(** The text under which a transport reports an error of the remote
    handler as an error of its own. *)
Definition remote_error (e : error) : error :=
  errors_New ("rpc error: code = Unknown desc = " ++ Error e).

(** A transport between two processes: a cancelled context ends the round
    trip with the cancellation error and the handler is not reached; an
    error of the handler arrives as a remote error that carries its text,
    not the error value; a panic of the handler does not reach the
    caller, who is told that the peer is gone. *)
Definition remote_client (srv : EmbeddingServer) : EmbeddingClient :=
  {| EmbeddingClient_Embedding :=
       fun ctx req w =>
         match ctx_Err ctx with
         | Some cancelled => ([], Returned (None, Some cancelled), w)
         | None =>
             let '(t, o, w') := EmbeddingServer_Embedding srv ctx req w in
             match o with
             | Returned (_, Some e) =>
                 (t, Returned (None, Some (remote_error e)), w')
             | Returned (resp, None) => (t, Returned (resp, None), w')
             | Panicked _ =>
                 (t,
                  Returned
                    (None,
                     Some (errors_New
                             "rpc error: code = Unavailable desc = error reading from server: EOF")),
                  w')
             end
         end |}.

End Bridge.

Arguments Embedding_Embedding {W} _ _ _.
Arguments EmbeddingServer_Embedding {W} _ _ _.
Arguments EmbeddingClient_Embedding {W} _ _ _.
Arguments EmbeddingPlugin_Embedding {W} _.
Arguments NewEmbeddingPlugin {W} _.
Arguments Impl {W} _.
Arguments Client {W} _.
Arguments NewEmbeddingGRPCServer {W} _.
Arguments NewEmbeddingGRPCClient {W} _.
Arguments EmbeddingGRPCServer_Embedding {W} _ _ _.
Arguments EmbeddingGRPCServer_as_EmbeddingServer {W} _.
Arguments EmbeddingGRPCClient_Embedding {W} _ _ _.
Arguments EmbeddingGRPCClient_as_Embedding {W} _.
Arguments any_EmbeddingGRPCClient {W} _.
Arguments services {W} _.
Arguments RegisterEmbeddingServer {W} _ _.
Arguments loopback {W} _.
Arguments remote_client {W} _.
Arguments EmbeddingPlugin_Server {W} _ _.
Arguments EmbeddingPlugin_Client {W} _ _ _.
Arguments EmbeddingPlugin_GRPCServer {W} _ _ _.
Arguments EmbeddingPlugin_GRPCClient {W} _ _ _ _ _.
Arguments bridge {W} _.
Arguments constant_impl {W} _ _.
Arguments scope_counting_impl {W}.
Arguments constant_client {W} _ _.

(** ** Properties of a returned pair *)

Definition is_nil {A : Type} (x : option A) : bool :=
  match x with
  | None => true
  | Some _ => false
  end.

(** Exactly one of the result and the error is non-nil. *)
Definition exactly_one {A B : Type} (a : option A) (b : option B) : bool :=
  xorb (is_nil a) (is_nil b).

(** The call returned, with exactly one of a result and an error. *)
Definition one_outcome {A B : Type} (o : outcome (option A * option B)) : Prop :=
  match o with
  | Returned (a, b) => exactly_one a b = true
  | Panicked _ => False
  end.

(** A call that succeeded returned a non-nil embedding. *)
Definition non_nil_on_success
  (o : outcome (Slice float32 * option error)) : Prop :=
  match o with
  | Returned (v, None) => is_nil v = false
  | _ => True
  end.

(** The spec's transparency of the bridge, in its words: [bridged] is the
    same result as [direct], the same vector on success, an error of the
    embedding-failed category on failure. *)
Definition same_result (direct bridged : outcome (Slice float32 * option error))
  : Prop :=
  match direct with
  | Returned (v, None) => bridged = Returned (v, None)
  | Returned (_, Some _) =>
      exists v' err,
        bridged = Returned (v', Some err) /\
        tagged "embedding failed" err = true
  | Panicked _ => True
  end.

(** The error a call returned leads back to [e] by unwrapping. *)
Definition surfaces_cause (o : outcome (Slice float32 * option error))
  (e : error) : Prop :=
  match o with
  | Returned (_, Some err) => errors_Is err e = true
  | _ => False
  end.

(** Transparency as the spec words it: the call through the bridge
    against the direct call [impl.Embedding(ctx, s)]. *)
Definition transparent {W : Type} (impl : Embedding W) (ctx : Context)
  (s : string) (w : W) : Prop :=
  same_result
    (outcome_of (Embedding_Embedding impl ctx s w))
    (outcome_of (Embedding_Embedding (bridge impl) ctx s w)).

(** ** Sample calls *)

Definition hello_request : EmbeddingRequest :=
  {| EmbeddingRequest_Input := "hello" |}.

Definition model_not_loaded : error := errors_New "model not loaded".

Definition connection_refused : error := errors_New "connection refused".

(** An implementation that fails, with a partial vector beside the error. *)
Definition failing_impl : Embedding unit :=
  constant_impl (Some [1%N]) (Some model_not_loaded).

(** A transport whose round trip fails. *)
Definition refusing_client : EmbeddingClient unit :=
  constant_client None (Some connection_refused).

(** A transport that brings back a response with three numbers. *)
Definition answering_client : EmbeddingClient unit :=
  constant_client
    (Some {| EmbeddingResponse_Embedding := Some [1%N; 2%N; 3%N] |}) None.

(** A transport that brings back a response whose embedding is nil, as the
    decoding of a message with no numbers in it gives. *)
Definition empty_response_client : EmbeddingClient unit :=
  constant_client (Some {| EmbeddingResponse_Embedding := None |}) None.

(** ** More sample collaborators *)

(** An implementation that succeeds with three numbers. *)
Definition answering_impl : Embedding unit :=
  constant_impl (Some [1%N; 2%N; 3%N]) None.

(** * Proofs *)

(** ** Errors and formatting *)

Lemma append_empty_r (s : string) : s ++ "" = s.
Proof.
  induction s as [|c s IH]; simpl; [reflexivity | now rewrite IH].
Qed.

Lemma Sprintf_embedding_failed (operand : string) :
  Sprintf "embedding failed: %w" operand = "embedding failed: " ++ operand.
Proof.
  simpl. now rewrite append_empty_r.
Qed.

Lemma fmt_Errorf_embedding_failed (e : error) :
  fmt_Errorf "embedding failed: %w" e =
  wrapError ("embedding failed: " ++ Error e) e.
Proof.
  unfold fmt_Errorf. now rewrite Sprintf_embedding_failed.
Qed.

Lemma fmt_Errorf_Unwrap (format : string) (e : error) :
  errors_Unwrap (fmt_Errorf format e) = Some e.
Proof. reflexivity. Qed.

Lemma fmt_Errorf_Error (e : error) :
  Error (fmt_Errorf "embedding failed: %w" e) = "embedding failed: " ++ Error e.
Proof. now rewrite fmt_Errorf_embedding_failed. Qed.

Lemma fmt_Errorf_tagged (e : error) :
  tagged "embedding failed" (fmt_Errorf "embedding failed: %w" e) = true.
Proof.
  unfold tagged. rewrite fmt_Errorf_Error. reflexivity.
Qed.

Lemma error_eqb_refl (e : error) : error_eqb e e = true.
Proof.
  induction e as [s | m e IH]; simpl.
  - apply String.eqb_refl.
  - now rewrite String.eqb_refl, IH.
Qed.

Lemma errors_Is_refl (e : error) : errors_Is e e = true.
Proof.
  destruct e; simpl; rewrite ?String.eqb_refl, ?error_eqb_refl; reflexivity.
Qed.

Lemma errors_Is_wrap (msg : string) (err target : error) :
  errors_Is err target = true -> errors_Is (wrapError msg err) target = true.
Proof.
  intros H. simpl. rewrite H. apply orb_true_r.
Qed.

Lemma chain_self (e : error) : In e (chain e).
Proof. destruct e; left; reflexivity. Qed.

Lemma chain_depth (e x : error) : In x (chain e) -> depth x <= depth e.
Proof.
  induction e as [s | m e IH]; simpl.
  - intros [<- | []]. simpl. lia.
  - intros [<- | H]; [simpl; lia | specialize (IH H); lia].
Qed.

(** An error is never its own cause, at one remove or at two. *)
Lemma wrap_neq (m : string) (e : error) : wrapError m e <> e.
Proof.
  intros H. apply (f_equal depth) in H. simpl in H. lia.
Qed.

Lemma wrap_wrap_neq (m1 m2 : string) (e : error) :
  wrapError m1 (wrapError m2 e) <> e.
Proof.
  intros H. apply (f_equal depth) in H. simpl in H. lia.
Qed.

(** ** The adapters, call by call *)

Section Runs.

Context {W : Type}.

(** The handler on a nil request: the scope is attached, then it panics. *)
Lemma server_run_nil (s : EmbeddingGRPCServer W) (ctx : Context) (w : W) :
  EmbeddingGRPCServer_Embedding s ctx None w =
  ([CallInitLogging ctx "embedding"], Panicked nil_dereference, w).
Proof. reflexivity. Qed.

(** The handler on a request, in terms of the call it delegates to. *)
Lemma server_run (s : EmbeddingGRPCServer W) (ctx : Context)
  (r : EmbeddingRequest) (w : W) :
  EmbeddingGRPCServer_Embedding s ctx (Some r) w =
  let ctx' := InitLogging ctx "embedding" in
  let input := EmbeddingRequest_Input r in
  let '(t, o, w') := Embedding_Embedding (Impl s) ctx' input w in
  (CallInitLogging ctx "embedding" :: CallEmbedding ctx' input :: t,
   match o with
   | Returned (_, Some e) =>
       Returned (None, Some (fmt_Errorf "embedding failed: %w" e))
   | Returned (v, None) =>
       Returned (Some {| EmbeddingResponse_Embedding := v |}, None)
   | Panicked msg => Panicked msg
   end,
   w').
Proof.
  unfold EmbeddingGRPCServer_Embedding, call_InitLogging, call_Embedding,
    deref, bind, tell, ret. simpl.
  destruct (Embedding_Embedding (Impl s) _ _ w) as [[t o] w'].
  destruct o as [[v [e|]] | msg]; simpl;
    rewrite ?app_nil_r; reflexivity.
Qed.

(** The client adapter, in terms of the round trip it makes. *)
Lemma client_run (c : EmbeddingGRPCClient W) (ctx : Context)
  (input : string) (w : W) :
  EmbeddingGRPCClient_Embedding c ctx input w =
  let req := Some {| EmbeddingRequest_Input := input |} in
  let '(t, o, w') := EmbeddingClient_Embedding (Client c) ctx req w in
  (CallClientEmbedding ctx req :: t,
   match o with
   | Returned (_, Some e) =>
       Returned (None, Some (fmt_Errorf "embedding failed: %w" e))
   | Returned (Some resp, None) =>
       Returned (EmbeddingResponse_Embedding resp, None)
   | Returned (None, None) => Panicked nil_dereference
   | Panicked msg => Panicked msg
   end,
   w').
Proof.
  unfold EmbeddingGRPCClient_Embedding, call_ClientEmbedding, deref, bind,
    tell, ret. simpl.
  destruct (EmbeddingClient_Embedding (Client c) _ _ w) as [[t o] w'].
  destruct o as [[[resp|] [e|]] | msg]; simpl;
    rewrite ?app_nil_r; reflexivity.
Qed.

(** The bridge, in terms of the call the server adapter delegates to. *)
Lemma bridge_run (impl : Embedding W) (ctx : Context) (s : string) (w : W) :
  Embedding_Embedding (bridge impl) ctx s w =
  let ctx' := InitLogging ctx "embedding" in
  let '(t, o, w') := Embedding_Embedding impl ctx' s w in
  (CallClientEmbedding ctx (Some {| EmbeddingRequest_Input := s |})
     :: CallInitLogging ctx "embedding" :: CallEmbedding ctx' s :: t,
   across_bridge o, w').
Proof.
  unfold bridge. simpl. rewrite client_run. simpl. rewrite server_run. simpl.
  destruct (Embedding_Embedding impl _ s w) as [[t o] w'].
  destruct o as [[v [e|]] | msg]; reflexivity.
Qed.

End Runs.

(** ** The server adapter *)

(** C3. Server adapter error path: whenever the bound implementation,
    called by the handler, returns a non-nil error [e] (with or without a
    vector beside it), the handler returns a nil response together with an
    error that wraps [e]: [e] is what unwrapping gives back, [errors.Is]
    finds it, and the text carries the embedding-failed tag in front of the
    text of [e]. *)
Theorem server_error_path :
  forall (W : Type) (s : EmbeddingGRPCServer W) (ctx : Context)
         (r : EmbeddingRequest) (w w' : W) (t : list event)
         (v : Slice float32) (e : error),
    Embedding_Embedding (Impl s) (InitLogging ctx "embedding")
      (EmbeddingRequest_Input r) w = (t, Returned (v, Some e), w') ->
    exists err,
      outcome_of (EmbeddingGRPCServer_Embedding s ctx (Some r) w) =
        Returned (None, Some err) /\
      errors_Unwrap err = Some e /\
      errors_Is err e = true /\
      Error err = "embedding failed: " ++ Error e /\
      tagged "embedding failed" err = true.
Proof.
  intros W s ctx r w w' t v e Himpl.
  exists (fmt_Errorf "embedding failed: %w" e).
  rewrite server_run. cbv zeta. rewrite Himpl.
  split; [reflexivity |].
  split; [apply fmt_Errorf_Unwrap |].
  split; [apply errors_Is_wrap, errors_Is_refl |].
  split; [apply fmt_Errorf_Error | apply fmt_Errorf_tagged].
Qed.

(** C7. Logging-scope attachment: every call of the handler first attaches
    the scope named embedding to its context, also when the request is nil
    and nothing is delegated; the one call it makes to the bound
    implementation comes after that and is given the augmented context,
    which carries the new scope in front of the scopes of the caller's
    context and the caller's cancellation signal. *)
Theorem logging_scope_attached :
  forall (W : Type) (s : EmbeddingGRPCServer W) (ctx : Context)
         (req : option EmbeddingRequest) (w : W),
    let ctx' := InitLogging ctx "embedding" in
    ctx_logging ctx' = "embedding" :: ctx_logging ctx /\
    ctx_Err ctx' = ctx_Err ctx /\
    match req with
    | None =>
        EmbeddingGRPCServer_Embedding s ctx req w =
        ([CallInitLogging ctx "embedding"], Panicked nil_dereference, w)
    | Some r =>
        let delegated :=
          Embedding_Embedding (Impl s) ctx' (EmbeddingRequest_Input r) w in
        trace_of (EmbeddingGRPCServer_Embedding s ctx req w) =
          CallInitLogging ctx "embedding"
            :: CallEmbedding ctx' (EmbeddingRequest_Input r)
            :: trace_of delegated /\
        world_of (EmbeddingGRPCServer_Embedding s ctx req w) =
          world_of delegated
    end.
Proof.
  intros W s ctx req w ctx'. split; [reflexivity |]. split; [reflexivity |].
  destruct req as [r |].
  - cbv zeta. rewrite server_run. cbv zeta. fold ctx'.
    destruct (Embedding_Embedding (Impl s) ctx' (EmbeddingRequest_Input r) w)
      as [[t o] w'].
    split; reflexivity.
  - apply server_run_nil.
Qed.

(** ** The client adapter *)

(** C4. Client adapter error path: whenever the round trip through the
    transport handle returns a non-nil error [terr] (with or without a
    response beside it), the client adapter returns a nil embedding
    together with an error that wraps [terr] under the embedding-failed
    tag; it is the very error a server adapter returns when its
    implementation fails with [terr], so both directions give one shape. *)
Theorem client_error_path :
  forall (W : Type) (c : EmbeddingGRPCClient W) (ctx : Context)
         (input : string) (w w' : W) (t : list event)
         (resp : option EmbeddingResponse) (terr : error),
    EmbeddingClient_Embedding (Client c) ctx
      (Some {| EmbeddingRequest_Input := input |}) w =
      (t, Returned (resp, Some terr), w') ->
    exists err,
      outcome_of (EmbeddingGRPCClient_Embedding c ctx input w) =
        Returned (None, Some err) /\
      errors_Unwrap err = Some terr /\
      errors_Is err terr = true /\
      Error err = "embedding failed: " ++ Error terr /\
      tagged "embedding failed" err = true /\
      forall v : Slice float32,
        outcome_of
          (EmbeddingGRPCServer_Embedding
             (NewEmbeddingGRPCServer (constant_impl v (Some terr)))
             ctx (Some {| EmbeddingRequest_Input := input |}) w) =
        Returned (None, Some err).
Proof.
  intros W c ctx input w w' t resp terr Hrpc.
  exists (fmt_Errorf "embedding failed: %w" terr).
  rewrite client_run. cbv zeta. rewrite Hrpc.
  split; [destruct resp; reflexivity |].
  split; [apply fmt_Errorf_Unwrap |].
  split; [apply errors_Is_wrap, errors_Is_refl |].
  split; [apply fmt_Errorf_Error |].
  split; [apply fmt_Errorf_tagged |].
  intros v. rewrite server_run. reflexivity.
Qed.

(** C8 (amended). When the round trip succeeds with a response, the client
    adapter returns the embedding of that response as it is, with a nil
    error; it makes no check of its own, so the embedding it returns is
    non-nil exactly when the embedding of the response is. *)
Theorem client_success_returns_response_embedding :
  forall (W : Type) (c : EmbeddingGRPCClient W) (ctx : Context)
         (input : string) (w w' : W) (t : list event)
         (resp : EmbeddingResponse),
    EmbeddingClient_Embedding (Client c) ctx
      (Some {| EmbeddingRequest_Input := input |}) w =
      (t, Returned (Some resp, None), w') ->
    outcome_of (EmbeddingGRPCClient_Embedding c ctx input w) =
      Returned (EmbeddingResponse_Embedding resp, None) /\
    (non_nil_on_success
       (outcome_of (EmbeddingGRPCClient_Embedding c ctx input w)) <->
     is_nil (EmbeddingResponse_Embedding resp) = false).
Proof.
  intros W c ctx input w w' t resp Hrpc.
  rewrite client_run. cbv zeta. rewrite Hrpc. simpl.
  split; [reflexivity | tauto].
Qed.

(** C2 (amended). The handler of the server adapter, given a request,
    returns whenever the bound implementation returns, and then exactly one
    of the response and the error is non-nil. The client adapter never
    returns a non-nil embedding with a non-nil error: on an error of the
    round trip it returns the error alone; on a response it returns the
    embedding of the response alone, so a response whose embedding is nil
    gives a nil embedding and a nil error. *)
Theorem adapters_outcome_shape :
  forall (W : Type) (s : EmbeddingGRPCServer W) (c : EmbeddingGRPCClient W)
         (ctx : Context) (r : EmbeddingRequest) (input : string) (w : W),
    match outcome_of
            (Embedding_Embedding (Impl s) (InitLogging ctx "embedding")
               (EmbeddingRequest_Input r) w) with
    | Returned _ =>
        one_outcome (outcome_of (EmbeddingGRPCServer_Embedding s ctx (Some r) w))
    | Panicked msg =>
        outcome_of (EmbeddingGRPCServer_Embedding s ctx (Some r) w) =
        Panicked msg
    end /\
    match outcome_of
            (EmbeddingClient_Embedding (Client c) ctx
               (Some {| EmbeddingRequest_Input := input |}) w) with
    | Returned (_, Some _) =>
        one_outcome (outcome_of (EmbeddingGRPCClient_Embedding c ctx input w))
    | Returned (Some resp, None) =>
        outcome_of (EmbeddingGRPCClient_Embedding c ctx input w) =
          Returned (EmbeddingResponse_Embedding resp, None) /\
        (one_outcome (outcome_of (EmbeddingGRPCClient_Embedding c ctx input w))
         <-> is_nil (EmbeddingResponse_Embedding resp) = false)
    | Returned (None, None) =>
        outcome_of (EmbeddingGRPCClient_Embedding c ctx input w) =
        Panicked nil_dereference
    | Panicked msg =>
        outcome_of (EmbeddingGRPCClient_Embedding c ctx input w) = Panicked msg
    end /\
    match outcome_of (EmbeddingGRPCClient_Embedding c ctx input w) with
    | Returned (v, err) => is_nil v || is_nil err = true
    | Panicked _ => True
    end.
Proof.
  intros W s c ctx r input w.
  rewrite server_run, client_run. cbv zeta.
  destruct (Embedding_Embedding (Impl s) _ _ w) as [[t1 o1] w1].
  destruct (EmbeddingClient_Embedding (Client c) _ _ w) as [[t2 o2] w2].
  unfold outcome_of, one_outcome, exactly_one. simpl.
  split; [| split].
  - destruct o1 as [[v [e |]] | msg]; reflexivity.
  - destruct o2 as [[[resp |] [e |]] | msg]; try reflexivity.
    split; [reflexivity |].
    destruct (EmbeddingResponse_Embedding resp); simpl;
      split; intros H; (reflexivity || discriminate H).
  - destruct o2 as [[[resp |] [e |]] | msg]; try reflexivity; try exact I.
    simpl. apply orb_true_r.
Qed.

(** ** The bridge *)

(** C1 (amended). For every implementation, context and input on which
    the implementation returns, and every transport that delivers to the
    client adapter, for this call, the response or the error the handler
    of the server adapter returns, as it is: the call of the client
    adapter gives the same result as the direct call of the implementation
    on the context augmented with the embedding logging scope, the same
    vector with a nil error on success, a nil vector with an error of the
    embedding-failed category on failure. *)
Theorem bridge_transparent_at_augmented_context :
  forall (W : Type) (impl : Embedding W) (transport : EmbeddingClient W)
         (ctx : Context) (s : string) (w w' : W) (t : list event)
         (res : Slice float32 * option error),
    Embedding_Embedding impl (InitLogging ctx "embedding") s w =
      (t, Returned res, w') ->
    outcome_of
      (EmbeddingClient_Embedding transport ctx
         (Some {| EmbeddingRequest_Input := s |}) w) =
    outcome_of
      (EmbeddingGRPCServer_Embedding (NewEmbeddingGRPCServer impl) ctx
         (Some {| EmbeddingRequest_Input := s |}) w) ->
    same_result (Returned res)
      (outcome_of
         (EmbeddingGRPCClient_Embedding (NewEmbeddingGRPCClient transport)
            ctx s w)) /\
    match res with
    | (v, None) =>
        outcome_of
          (EmbeddingGRPCClient_Embedding (NewEmbeddingGRPCClient transport)
             ctx s w) = Returned (v, None)
    | (_, Some e) =>
        exists err,
          outcome_of
            (EmbeddingGRPCClient_Embedding (NewEmbeddingGRPCClient transport)
               ctx s w) = Returned (None, Some err) /\
          tagged "embedding failed" err = true
    end.
Proof.
  intros W impl transport ctx s w w' t res Himpl Hdeliver.
  rewrite server_run in Hdeliver. cbv zeta in Hdeliver.
  simpl Impl in Hdeliver. simpl EmbeddingRequest_Input in Hdeliver.
  rewrite Himpl in Hdeliver.
  rewrite client_run. cbv zeta. simpl Client.
  destruct (EmbeddingClient_Embedding transport ctx _ w) as [[t2 o2] w2].
  unfold outcome_of in *. simpl in *. subst o2.
  destruct res as [v [e |]]; simpl.
  - split.
    + eexists; eexists. split; [reflexivity | apply fmt_Errorf_tagged].
    + eexists. split; [reflexivity | apply fmt_Errorf_tagged].
  - split; reflexivity.
Qed.


(** C9. Double tagging: whenever the bound implementation fails with [e]
    and the error of the server adapter comes back as the error of the
    round trip, the error the host caller receives carries the tag twice;
    one unwrap gives the error of the server adapter, a second one gives
    [e], and neither the received error nor the error of the server
    adapter is [e] itself. *)
Theorem failure_tagged_twice :
  forall (W : Type) (impl : Embedding W) (ctx : Context) (s : string)
         (w w' : W) (t : list event) (v : Slice float32) (e : error),
    Embedding_Embedding impl (InitLogging ctx "embedding") s w =
      (t, Returned (v, Some e), w') ->
    exists err srv_err,
      outcome_of
        (EmbeddingGRPCServer_Embedding (NewEmbeddingGRPCServer impl) ctx
           (Some {| EmbeddingRequest_Input := s |}) w) =
        Returned (None, Some srv_err) /\
      outcome_of (Embedding_Embedding (bridge impl) ctx s w) =
        Returned (None, Some err) /\
      errors_Unwrap err = Some srv_err /\
      errors_Unwrap srv_err = Some e /\
      err <> e /\
      srv_err <> e /\
      Error srv_err = "embedding failed: " ++ Error e /\
      Error err = "embedding failed: embedding failed: " ++ Error e.
Proof.
  intros W impl ctx s w w' t v e Himpl.
  exists (fmt_Errorf "embedding failed: %w"
            (fmt_Errorf "embedding failed: %w" e)).
  exists (fmt_Errorf "embedding failed: %w" e).
  rewrite bridge_run, server_run. cbv zeta. simpl Impl.
  simpl EmbeddingRequest_Input. rewrite Himpl.
  split; [reflexivity |]. split; [reflexivity |].
  split; [reflexivity |]. split; [reflexivity |].
  split; [apply wrap_wrap_neq |]. split; [apply wrap_neq |].
  rewrite !fmt_Errorf_Error. split; reflexivity.
Qed.

(** ** The registration facade *)

(** C6. Non-RPC rejection: for every plugin, broker and rpc client, and in
    every state of the collaborators, [Server] and [Client] return a nil
    value with [ErrNotGRPC]; they make no call at all, so none to the bound
    implementation, and leave the collaborators as they were. *)
Theorem non_rpc_paths_rejected :
  forall (W : Type) (plugin : EmbeddingPlugin W) (broker : MuxBroker)
         (client : rpc_Client) (w : W),
    EmbeddingPlugin_Server plugin broker w =
      ([], Returned (None, Some ErrNotGRPC), w) /\
    EmbeddingPlugin_Client plugin broker client w =
      ([], Returned (None, Some ErrNotGRPC), w) /\
    forall (ctx : Context) (input : string),
      ~ In (CallEmbedding ctx input)
          (trace_of (EmbeddingPlugin_Server plugin broker w)) /\
      ~ In (CallEmbedding ctx input)
          (trace_of (EmbeddingPlugin_Client plugin broker client w)).
Proof.
  intros W plugin broker client w.
  split; [reflexivity |]. split; [reflexivity |].
  intros ctx input. split; intros [].
Qed.

(** C10. Server-side binding never fails: for every plugin, broker and
    server handle, [GRPCServer] returns a nil error; the handle it leaves
    has one more service, registered after those it had, and that service
    is the server adapter over the implementation the plugin holds. *)
Theorem server_binding_never_fails :
  forall (W : Type) (plugin : EmbeddingPlugin W) (broker : GRPCBroker)
         (srv : grpc_Server W) (w : W),
    let adapter := NewEmbeddingGRPCServer (EmbeddingPlugin_Embedding plugin) in
    EmbeddingPlugin_GRPCServer plugin broker srv w =
      ([],
       Returned
         ({| services :=
               services srv ++ [EmbeddingGRPCServer_as_EmbeddingServer adapter]
          |}, None),
       w) /\
    Impl adapter = EmbeddingPlugin_Embedding plugin /\
    EmbeddingServer_Embedding (EmbeddingGRPCServer_as_EmbeddingServer adapter) =
      EmbeddingGRPCServer_Embedding adapter.
Proof.
  intros W plugin broker srv w adapter.
  split; [reflexivity |]. split; reflexivity.
Qed.

(** ** Counterexamples to the claims as worded *)

(** C1, as worded, fails: an implementation that reads the logging scopes
    of its context answers the direct call on the caller's context with
    one vector and the call through the bridge with another, both with a
    nil error. *)
Lemma bridge_not_transparent_for_scope_counting :
  ~ transparent (@scope_counting_impl unit) context_Background "hello" tt.
Proof.
  unfold transparent. cbv. intros H. discriminate H.
Qed.

(** C2, as worded, fails: over a transport that brings back a response
    whose embedding is nil, the client adapter returns a nil embedding and
    a nil error. *)
Lemma client_returns_neither_on_empty_response :
  outcome_of
    (EmbeddingGRPCClient_Embedding
       (NewEmbeddingGRPCClient empty_response_client)
       context_Background "hello" tt) = Returned (None, None) /\
  ~ one_outcome
      (outcome_of
         (EmbeddingGRPCClient_Embedding
            (NewEmbeddingGRPCClient empty_response_client)
            context_Background "hello" tt)).
Proof.
  split; [reflexivity |]. cbv. intros H. discriminate H.
Qed.


(** C8, as worded, fails: for the empty input, over a transport that
    brings back a response whose embedding is nil, the call of the client
    adapter succeeds and the embedding it returns is nil. *)
Lemma client_success_with_nil_embedding :
  ~ non_nil_on_success
      (outcome_of
         (EmbeddingGRPCClient_Embedding
            (NewEmbeddingGRPCClient empty_response_client)
            context_Background "" tt)).
Proof.
  cbv. intros H. discriminate H.
Qed.

(** ** The theorems at sample calls *)

Lemma server_error_path_witness :
  exists err,
    outcome_of
      (EmbeddingGRPCServer_Embedding (NewEmbeddingGRPCServer failing_impl)
         context_Background (Some hello_request) tt) =
      Returned (None, Some err) /\
    errors_Unwrap err = Some model_not_loaded /\
    errors_Is err model_not_loaded = true /\
    Error err = "embedding failed: " ++ Error model_not_loaded /\
    tagged "embedding failed" err = true.
Proof.
  exact (server_error_path unit (NewEmbeddingGRPCServer failing_impl)
           context_Background hello_request tt tt [] (Some [1%N])
           model_not_loaded eq_refl).
Defined.

Lemma client_error_path_witness :
  exists err,
    outcome_of
      (EmbeddingGRPCClient_Embedding (NewEmbeddingGRPCClient refusing_client)
         context_Background "hello" tt) =
      Returned (None, Some err) /\
    errors_Unwrap err = Some connection_refused /\
    errors_Is err connection_refused = true /\
    Error err = "embedding failed: " ++ Error connection_refused /\
    tagged "embedding failed" err = true /\
    forall v : Slice float32,
      outcome_of
        (EmbeddingGRPCServer_Embedding
           (NewEmbeddingGRPCServer (constant_impl v (Some connection_refused)))
           context_Background (Some {| EmbeddingRequest_Input := "hello" |})
           tt) =
      Returned (None, Some err).
Proof.
  exact (client_error_path unit (NewEmbeddingGRPCClient refusing_client)
           context_Background "hello" tt tt [] None connection_refused
           eq_refl).
Defined.

Lemma client_success_returns_response_embedding_witness :
  outcome_of
    (EmbeddingGRPCClient_Embedding (NewEmbeddingGRPCClient answering_client)
       context_Background "hello" tt) =
    Returned (Some [1%N; 2%N; 3%N], None) /\
  (non_nil_on_success
     (outcome_of
        (EmbeddingGRPCClient_Embedding
           (NewEmbeddingGRPCClient answering_client)
           context_Background "hello" tt)) <->
   is_nil (Some [1%N; 2%N; 3%N]) = false).
Proof.
  exact (client_success_returns_response_embedding unit
           (NewEmbeddingGRPCClient answering_client) context_Background
           "hello" tt tt []
           {| EmbeddingResponse_Embedding := Some [1%N; 2%N; 3%N] |}
           eq_refl).
Defined.

Lemma bridge_transparent_at_augmented_context_witness :
  same_result (Returned (Some [1%N; 2%N; 3%N], None))
    (outcome_of
       (EmbeddingGRPCClient_Embedding
          (NewEmbeddingGRPCClient
             (loopback
                (EmbeddingGRPCServer_as_EmbeddingServer
                   (NewEmbeddingGRPCServer answering_impl))))
          context_Background "hello" tt)) /\
  outcome_of
    (EmbeddingGRPCClient_Embedding
       (NewEmbeddingGRPCClient
          (loopback
             (EmbeddingGRPCServer_as_EmbeddingServer
                (NewEmbeddingGRPCServer answering_impl))))
       context_Background "hello" tt) =
  Returned (Some [1%N; 2%N; 3%N], None).
Proof.
  exact (bridge_transparent_at_augmented_context unit answering_impl
           (loopback
              (EmbeddingGRPCServer_as_EmbeddingServer
                 (NewEmbeddingGRPCServer answering_impl)))
           context_Background "hello" tt tt []
           (Some [1%N; 2%N; 3%N], None) eq_refl eq_refl).
Defined.


Lemma failure_tagged_twice_witness :
  exists err srv_err,
    outcome_of
      (EmbeddingGRPCServer_Embedding (NewEmbeddingGRPCServer failing_impl)
         context_Background (Some {| EmbeddingRequest_Input := "hello" |})
         tt) =
      Returned (None, Some srv_err) /\
    outcome_of
      (Embedding_Embedding (bridge failing_impl) context_Background
         "hello" tt) =
      Returned (None, Some err) /\
    errors_Unwrap err = Some srv_err /\
    errors_Unwrap srv_err = Some model_not_loaded /\
    err <> model_not_loaded /\
    srv_err <> model_not_loaded /\
    Error srv_err = "embedding failed: " ++ Error model_not_loaded /\
    Error err =
      "embedding failed: embedding failed: " ++ Error model_not_loaded.
Proof.
  exact (failure_tagged_twice unit failing_impl context_Background "hello"
           tt tt [] (Some [1%N]) model_not_loaded eq_refl).
Defined.

(** * Further properties of the adapters and the facade *)

(** X1. Server adapter success path: whenever the bound implementation,
    called by the handler, returns a nil error with a vector [v], the
    handler returns a non-nil response whose embedding is [v] as it is
    (a nil vector stays nil, an empty one stays empty) and a nil error. *)
Theorem server_success_path :
  forall (W : Type) (s : EmbeddingGRPCServer W) (ctx : Context)
         (r : EmbeddingRequest) (w w' : W) (t : list event)
         (v : Slice float32),
    Embedding_Embedding (Impl s) (InitLogging ctx "embedding")
      (EmbeddingRequest_Input r) w = (t, Returned (v, None), w') ->
    exists resp,
      EmbeddingGRPCServer_Embedding s ctx (Some r) w =
        (CallInitLogging ctx "embedding"
           :: CallEmbedding (InitLogging ctx "embedding")
                (EmbeddingRequest_Input r) :: t,
         Returned (Some resp, None), w') /\
      EmbeddingResponse_Embedding resp = v.
Proof.
  intros W s ctx r w w' t v Himpl.
  exists {| EmbeddingResponse_Embedding := v |}.
  rewrite server_run. cbv zeta. rewrite Himpl. split; reflexivity.
Qed.

Lemma server_success_path_witness :
  exists resp,
    EmbeddingGRPCServer_Embedding (NewEmbeddingGRPCServer answering_impl)
      context_Background (Some hello_request) tt =
      (CallInitLogging context_Background "embedding"
         :: CallEmbedding (InitLogging context_Background "embedding")
              (EmbeddingRequest_Input hello_request) :: [],
       Returned (Some resp, None), tt) /\
    EmbeddingResponse_Embedding resp = Some [1%N; 2%N; 3%N].
Proof.
  exact (server_success_path unit (NewEmbeddingGRPCServer answering_impl)
           context_Background hello_request tt tt [] (Some [1%N; 2%N; 3%N])
           eq_refl).
Defined.

(** X2. One round trip, request passed through: whatever the transport
    answers, the client adapter calls it once and first, with the caller's
    context as it is and a non-nil request holding the input as it is (no
    validation, the empty input included); what the call records and the
    state it leaves are those of that one round trip, so nothing is
    retried after an error. *)
Theorem client_single_round_trip :
  forall (W : Type) (c : EmbeddingGRPCClient W) (ctx : Context)
         (input : string) (w : W),
    let req := Some {| EmbeddingRequest_Input := input |} in
    let round_trip := EmbeddingClient_Embedding (Client c) ctx req w in
    trace_of (EmbeddingGRPCClient_Embedding c ctx input w) =
      CallClientEmbedding ctx req :: trace_of round_trip /\
    world_of (EmbeddingGRPCClient_Embedding c ctx input w) =
      world_of round_trip.
Proof.
  intros W c ctx input w. cbv zeta. rewrite client_run. cbv zeta.
  destruct (EmbeddingClient_Embedding (Client c) ctx _ w) as [[t o] w'].
  split; reflexivity.
Qed.

(** X3. A server adapter bound to a client adapter: the client adapter is
    an [Embedding], so a plugin can serve one that forwards to a further
    transport. The handler then makes one round trip upstream, with the
    augmented context and the input of the request; an upstream error
    comes back as a nil response and an error that carries the tag twice,
    the upstream error two unwraps down; an upstream response comes back
    as a response of its own with the same embedding. *)
Theorem proxy_handler :
  forall (W : Type) (upstream : EmbeddingClient W) (ctx : Context)
         (r : EmbeddingRequest) (w : W),
    let ctx' := InitLogging ctx "embedding" in
    let forwarded :=
      Some {| EmbeddingRequest_Input := EmbeddingRequest_Input r |} in
    let '(t, o, w') := EmbeddingClient_Embedding upstream ctx' forwarded w in
    EmbeddingGRPCServer_Embedding
      (NewEmbeddingGRPCServer
         (EmbeddingGRPCClient_as_Embedding (NewEmbeddingGRPCClient upstream)))
      ctx (Some r) w =
    (CallInitLogging ctx "embedding"
       :: CallEmbedding ctx' (EmbeddingRequest_Input r)
       :: CallClientEmbedding ctx' forwarded :: t,
     match o with
     | Returned (_, Some terr) =>
         Returned
           (None,
            Some (wrapError
                    ("embedding failed: embedding failed: " ++ Error terr)
                    (wrapError ("embedding failed: " ++ Error terr) terr)))
     | Returned (Some resp, None) =>
         Returned
           (Some {| EmbeddingResponse_Embedding :=
                      EmbeddingResponse_Embedding resp |}, None)
     | Returned (None, None) => Panicked nil_dereference
     | Panicked msg => Panicked msg
     end,
     w').
Proof.
  intros W upstream ctx r w. cbv zeta.
  rewrite server_run. cbv zeta. simpl Impl. simpl Embedding_Embedding.
  rewrite client_run. cbv zeta. simpl Client.
  destruct (EmbeddingClient_Embedding upstream _ _ w) as [[t o] w'].
  destruct o as [[[resp |] [terr |]] | msg]; try reflexivity;
    rewrite !fmt_Errorf_embedding_failed; reflexivity.
Qed.
